(** * Password-reset OTP flow and change-password flow of CodeConclave

    Shallow embedding of [src/src/components/Auth/OTPVerification.jsx]:
    the [OTPVerification] component (handlers [handleVerifyOTP] and
    [handlePasswordReset]) and the [Settings] component (handler
    [handlePasswordUpdate] and the checklist of [renderSecuritySection]).

    Each async handler is split at its [await] into a synchronous start
    (state updates, then at most one network call) and a continuation run
    when the external call settles.  Strings are Stdlib strings of ASCII
    characters (JS strings restricted to ASCII). *)

From Stdlib Require Import String Ascii List Bool Arith Lia.
Import ListNotations.
Open Scope string_scope.

(** ** External boundary (authService) *)

(** A network call issued to [services/authService]; [null] is [None]. *)
Inductive call : Type :=
| VerifyOTP (resetToken : option string) (otp : string)
| ResetPassword (verificationToken : option string) (newPassword : string)
| ChangePassword (currentPassword : string) (newPassword : string).

(** How an awaited call settles: resolved with a value, or rejected with an
    error carrying [err.response?.data?.message] and [err.message]. *)
Inductive outcome : Type :=
| Resolved (value : option string)
| Rejected (response_message : option string) (message : option string).

(** Effects other than component state updates. *)
Inductive effect : Type :=
| Net (c : call)
| SetTimeoutOnBack (ms : nat).

(** JS [a || b] where [a] is a possibly missing string: a missing or empty
    string is falsy. *)
Definition js_or (a : option string) (b : string) : string :=
  match a with
  | Some s => if String.eqb s "" then b else s
  | None => b
  end.

(** JS truthiness of a string-or-null value. *)
Definition truthy (v : option string) : bool :=
  match v with
  | Some s => negb (String.eqb s "")
  | None => false
  end.

(** ** The [OTPVerification] component *)

Module OTP.

Record state : Type := mkState {
  otp : string;
  newPassword : string;
  confirmPassword : string;
  error : option string;
  message : option string;
  isSubmitting : bool;
  verificationToken : option string
}.

(** [useState] initial values. *)
Definition init : state :=
  mkState "" "" "" None None false None.

Definition setError (v : option string) (s : state) : state :=
  mkState (otp s) (newPassword s) (confirmPassword s) v (message s)
          (isSubmitting s) (verificationToken s).
Definition setMessage (v : option string) (s : state) : state :=
  mkState (otp s) (newPassword s) (confirmPassword s) (error s) v
          (isSubmitting s) (verificationToken s).
Definition setIsSubmitting (v : bool) (s : state) : state :=
  mkState (otp s) (newPassword s) (confirmPassword s) (error s) (message s)
          v (verificationToken s).
Definition setVerificationToken (v : option string) (s : state) : state :=
  mkState (otp s) (newPassword s) (confirmPassword s) (error s) (message s)
          (isSubmitting s) v.

(** The inputs' [onChange] handlers. *)
Definition setOtp (v : string) (s : state) : state :=
  mkState v (newPassword s) (confirmPassword s) (error s) (message s)
          (isSubmitting s) (verificationToken s).
Definition setNewPassword (v : string) (s : state) : state :=
  mkState (otp s) v (confirmPassword s) (error s) (message s)
          (isSubmitting s) (verificationToken s).
Definition setConfirmPassword (v : string) (s : state) : state :=
  mkState (otp s) (newPassword s) v (error s) (message s)
          (isSubmitting s) (verificationToken s).

(** [handleVerifyOTP], up to [await verifyOTP(resetToken, otp)]. *)
Definition handleVerifyOTP_start (resetToken : option string) (s : state)
  : state * option call :=
  (setIsSubmitting true s, Some (VerifyOTP resetToken (otp s))).

(** [handleVerifyOTP], after the call settles (try / catch / finally).
    The resolved value is bound to [verifyResponse] and not used. *)
Definition handleVerifyOTP_finish (resetToken : option string) (o : outcome)
  (s : state) : state :=
  match o with
  | Resolved verifyResponse =>
      setIsSubmitting false
        (setError None (setVerificationToken resetToken s))
  | Rejected rmsg _ =>
      setIsSubmitting false
        (setError (Some (js_or rmsg "OTP verification failed")) s)
  end.

(** [handlePasswordReset], up to [await resetPassword(...)]. *)
Definition handlePasswordReset_start (s : state) : state * option call :=
  if negb (String.eqb (newPassword s) (confirmPassword s)) then
    (setError (Some "Passwords do not match") s, None)
  else
    (setIsSubmitting true s,
     Some (ResetPassword (verificationToken s) (newPassword s))).

Definition reset_success_message : string :=
  "Password reset successfully! You can now login with your new password.".

(** [handlePasswordReset], after the call settles; success also runs
    [setTimeout(onBack, 3000)]. *)
Definition handlePasswordReset_finish (o : outcome) (s : state)
  : state * list effect :=
  match o with
  | Resolved _ =>
      (setIsSubmitting false (setMessage (Some reset_success_message) s),
       [SetTimeoutOnBack 3000])
  | Rejected rmsg _ =>
      (setIsSubmitting false
         (setError (Some (js_or rmsg "Password reset failed")) s), [])
  end.

(** A whole handler run, the external call settling with [o]: the final
    state and the effects issued, in order. *)
Definition handleVerifyOTP (resetToken : option string) (o : outcome)
  (s : state) : state * list effect :=
  let '(s1, c) := handleVerifyOTP_start resetToken s in
  match c with
  | Some c => (handleVerifyOTP_finish resetToken o s1, [Net c])
  | None => (s1, [])
  end.

Definition handlePasswordReset (o : outcome) (s : state)
  : state * list effect :=
  let '(s1, c) := handlePasswordReset_start s in
  match c with
  | Some c => let '(s2, effs) := handlePasswordReset_finish o s1 in
              (s2, Net c :: effs)
  | None => (s1, [])
  end.

(** Which form is rendered: [{!verificationToken ? <OTP form> : <reset form>}]. *)
Inductive phase : Type := AwaitingOTP | AwaitingNewPassword.

Definition phase_of (s : state) : phase :=
  if truthy (verificationToken s) then AwaitingNewPassword else AwaitingOTP.

End OTP.

(** ** The [Settings] component: password checklist and [handlePasswordUpdate] *)

Module Settings.

(** Character classes of the checklist regexes in [renderSecuritySection]. *)
Definition in_range (lo hi : nat) (c : ascii) : bool :=
  Nat.leb lo (nat_of_ascii c) && Nat.leb (nat_of_ascii c) hi.

(** The special-character class of the last checklist regex, as character
    codes: ! @ # $ % ^ & * ( ) _ + - = [ ] { } ; ' : (double quote) (backslash)
    | , . < > / ?. *)
Definition special_codes : list nat :=
  [33; 64; 35; 36; 37; 94; 38; 42; 40; 41; 95; 43; 45; 61; 91; 93; 123; 125;
   59; 39; 58; 34; 92; 124; 44; 46; 60; 62; 47; 63].

Definition is_special (c : ascii) : bool :=
  existsb (Nat.eqb (nat_of_ascii c)) special_codes.

(** [/[a-z]/.test(p)], [/[A-Z]/.test(p)], [/[0-9]/.test(p)] and the special class. *)
Definition has_lower (p : string) : bool :=
  existsb (in_range 97 122) (list_ascii_of_string p).
Definition has_upper (p : string) : bool :=
  existsb (in_range 65 90) (list_ascii_of_string p).
Definition has_digit (p : string) : bool :=
  existsb (in_range 48 57) (list_ascii_of_string p).
Definition has_special (p : string) : bool :=
  existsb is_special (list_ascii_of_string p).

(** The [$valid] flags of the five [RequirementItem]s, in rendering order. *)
Definition requirements (p : string) : list bool :=
  [Nat.leb 8 (String.length p); has_lower p; has_upper p; has_digit p; has_special p].

(** The five rules of the policy. *)
Inductive rule : Type :=
| MinLength | Lowercase | Uppercase | Digit | Special.

Record validation : Type := mkValidation {
  isValid : bool;
  failedRule : option rule;
  vmessage : string
}.

(** Text shown for a failed rule (the checklist labels). *)
Definition rule_message (r : rule) : string :=
  match r with
  | MinLength => "At least 8 characters"
  | Lowercase => "One lowercase letter (a-z)"
  | Uppercase => "One uppercase letter (A-Z)"
  | Digit => "One number (0-9)"
  | Special => "One special character"
  end.

(** Modelled from the spec: [validatePassword] of [utils/validators], which
    is not part of the sources.  Per the spec (4.2), [valid] holds iff all
    five rules hold, and [failedRule] names a failing rule; the fixed
    special-character set is the checklist's class. *)
Definition validatePassword (p : string) : validation :=
  let first :=
    if negb (Nat.leb 8 (String.length p)) then Some MinLength
    else if negb (has_lower p) then Some Lowercase
    else if negb (has_upper p) then Some Uppercase
    else if negb (has_digit p) then Some Digit
    else if negb (has_special p) then Some Special
    else None in
  match first with
  | Some r => mkValidation false (Some r) (rule_message r)
  | None => mkValidation true None ""
  end.

Record passwordData : Type := mkPasswordData {
  currentPassword : string;
  newPassword : string;
  confirmPassword : string
}.

Definition emptyPasswordData : passwordData := mkPasswordData "" "" "".

(** The password part of the [Settings] state. *)
Record state : Type := mkState {
  pwData : passwordData;
  passwordError : string;
  passwordSuccess : string;
  isUpdatingPassword : bool
}.

Definition init : state := mkState emptyPasswordData "" "" false.

Definition setPasswordData (d : passwordData) (s : state) : state :=
  mkState d (passwordError s) (passwordSuccess s) (isUpdatingPassword s).
Definition setPasswordError (e : string) (s : state) : state :=
  mkState (pwData s) e (passwordSuccess s) (isUpdatingPassword s).
Definition setPasswordSuccess (m : string) (s : state) : state :=
  mkState (pwData s) (passwordError s) m (isUpdatingPassword s).
Definition setIsUpdatingPassword (b : bool) (s : state) : state :=
  mkState (pwData s) (passwordError s) (passwordSuccess s) b.

Definition noop_message : string :=
  "New password must be different from current password".

(** [handlePasswordUpdate], up to [await changePassword(...)]. *)
Definition handlePasswordUpdate_start (s : state) : state * option call :=
  let d := pwData s in
  if String.eqb (currentPassword d) "" then
    (setPasswordError "Current password is required" s, None)
  else
    let passwordValidation := validatePassword (newPassword d) in
    if negb (isValid passwordValidation) then
      (setPasswordError (vmessage passwordValidation) s, None)
    else if negb (String.eqb (newPassword d) (confirmPassword d)) then
      (setPasswordError "New passwords do not match" s, None)
    else if String.eqb (currentPassword d) (newPassword d) then
      (setPasswordError noop_message s, None)
    else
      (setPasswordError "" (setIsUpdatingPassword true s),
       Some (ChangePassword (currentPassword d) (newPassword d))).

(** [handlePasswordUpdate], after the call settles (try / catch / finally). *)
Definition handlePasswordUpdate_finish (o : outcome) (s : state) : state :=
  match o with
  | Resolved _ =>
      setIsUpdatingPassword false
        (setPasswordData emptyPasswordData
           (setPasswordSuccess "Password updated successfully!" s))
  | Rejected rmsg msg =>
      setIsUpdatingPassword false
        (setPasswordData emptyPasswordData
           (setPasswordError (js_or rmsg (js_or msg "Failed to update password")) s))
  end.

Definition handlePasswordUpdate (o : outcome) (s : state)
  : state * list effect :=
  let '(s1, c) := handlePasswordUpdate_start s in
  match c with
  | Some c => (handlePasswordUpdate_finish o s1, [Net c])
  | None => (s1, [])
  end.

End Settings.

(** ** The rendered [OTPVerification] component as an event machine

    A submit event reaches its handler only if its form is rendered
    ([{!verificationToken ? ... : ...}]) and its button is enabled
    ([disabled={isSubmitting}]); otherwise the browser ignores it.  The
    inputs' [required] attributes, which block further submissions, are
    not modelled: the machine allows a superset of the real submissions. *)

Module UI.

(** A call of this instance that has not settled yet, by handler. *)
Inductive pending : Type := PendVerify | PendReset.

Record ui : Type := mkUI {
  comp : OTP.state;
  inflight : list pending
}.

Definition init : ui := mkUI OTP.init [].

Inductive event : Type :=
| SubmitOTPForm
| SubmitResetForm
| Settle (o : outcome)
| ClickBack.

(** Modelled from the spec: the caller's [onBack] (the parent screen is
    not part of the sources).  Per the spec (4.1), the explicit back
    action resets the controller to [AwaitingOTP] and discards the stored
    VerificationToken: the caller drops this instance and mounts a fresh
    one, to which the old instance's calls never report. *)
Definition onBack (u : ui) : ui := init.

Definition start (u : ui) (r : OTP.state * option call) (p : pending) : ui :=
  let '(s, c) := r in
  match c with
  | Some _ => mkUI s (inflight u ++ [p])
  | None => mkUI s (inflight u)
  end.

Definition step (resetToken : option string) (e : event) (u : ui) : ui :=
  let s := comp u in
  match e with
  | SubmitOTPForm =>
      if negb (truthy (OTP.verificationToken s)) && negb (OTP.isSubmitting s)
      then start u (OTP.handleVerifyOTP_start resetToken s) PendVerify
      else u
  | SubmitResetForm =>
      if truthy (OTP.verificationToken s) && negb (OTP.isSubmitting s)
      then start u (OTP.handlePasswordReset_start s) PendReset
      else u
  | Settle o =>
      match inflight u with
      | PendVerify :: rest =>
          mkUI (OTP.handleVerifyOTP_finish resetToken o s) rest
      | PendReset :: rest =>
          mkUI (fst (OTP.handlePasswordReset_finish o s)) rest
      | [] => u
      end
  | ClickBack => onBack u
  end.

Definition run (resetToken : option string) (evs : list event) (u : ui) : ui :=
  fold_left (fun u e => step resetToken e u) evs u.

End UI.

(** ** The [Settings] password form: [handlePasswordChange] and the form
    as an event machine *)

Module PasswordForm.

(** The [name] of the three inputs wired to [handlePasswordChange]. *)
Inductive pw_field : Type := FCurrent | FNew | FConfirm.

(** [handlePasswordChange]: [{...prev, [name]: value}], then the two
    conditional clears ([if (passwordError)], [if (passwordSuccess)]). *)
Definition handlePasswordChange (name : pw_field) (value : string)
  (s : Settings.state) : Settings.state :=
  let d := Settings.pwData s in
  let d' :=
    match name with
    | FCurrent => Settings.mkPasswordData value (Settings.newPassword d)
                    (Settings.confirmPassword d)
    | FNew => Settings.mkPasswordData (Settings.currentPassword d) value
                (Settings.confirmPassword d)
    | FConfirm => Settings.mkPasswordData (Settings.currentPassword d)
                    (Settings.newPassword d) value
    end in
  let s1 := Settings.setPasswordData d' s in
  let s2 := if negb (String.eqb (Settings.passwordError s) "")
            then Settings.setPasswordError "" s1 else s1 in
  if negb (String.eqb (Settings.passwordSuccess s) "")
  then Settings.setPasswordSuccess "" s2 else s2.

(** The rendered security form.  The inputs are never disabled; the submit
    button is [disabled={isUpdatingPassword}], which also blocks implicit
    submission.  [inflight] lists the issued calls not yet settled. *)
Record form : Type := mkForm {
  fstate : Settings.state;
  inflight : list call
}.

Definition init : form := mkForm Settings.init [].

Inductive event : Type :=
| TypeInto (f : pw_field) (v : string)
| SubmitPasswordForm
| SettleChange (o : outcome).

Definition step (e : event) (u : form) : form :=
  let s := fstate u in
  match e with
  | TypeInto f v => mkForm (handlePasswordChange f v s) (inflight u)
  | SubmitPasswordForm =>
      if Settings.isUpdatingPassword s then u
      else
        let '(s1, c) := Settings.handlePasswordUpdate_start s in
        match c with
        | Some c => mkForm s1 (inflight u ++ [c])
        | None => mkForm s1 (inflight u)
        end
  | SettleChange o =>
      match inflight u with
      | _ :: rest => mkForm (Settings.handlePasswordUpdate_finish o s) rest
      | [] => u
      end
  end.

Definition run (evs : list event) (u : form) : form :=
  fold_left (fun u e => step e u) evs u.

End PasswordForm.

(** ** The [Settings] profile and preference data: [handleInputChange]

    [formData] is a JS object, modelled as an association list in property
    order; a property assigned in an object literal after a spread keeps
    its position if present and is appended otherwise.  (JS lists
    integer-like keys first; lookups, the only thing stated below, do not
    depend on the order.) *)

Module FormData.

#[local] Set Warnings "-register-all".

Inductive jsval : Type :=
| JStr (s : string)
| JBool (b : bool)
| JObj (props : list (string * jsval)).

Definition obj : Type := list (string * jsval).

Fixpoint lookup (o : obj) (k : string) : option jsval :=
  match o with
  | [] => None
  | (k', v) :: r => if String.eqb k' k then Some v else lookup r k
  end.

(** [{...o, [k]: v}]. *)
Fixpoint set_prop (o : obj) (k : string) (v : jsval) : obj :=
  match o with
  | [] => [(k, v)]
  | (k', v') :: r =>
      if String.eqb k' k then (k, v) :: r else (k', v') :: set_prop r k v
  end.

(** Decimal notation of a natural number, as JS prints an array index. *)
Fixpoint dec_aux (fuel n : nat) (acc : string) : string :=
  match fuel with
  | 0 => acc
  | S f =>
      let acc' := String (ascii_of_nat (48 + n mod 10)) acc in
      if Nat.ltb n 10 then acc' else dec_aux f (Nat.div n 10) acc'
  end.

Definition dec_of_nat (n : nat) : string := dec_aux (S n) n "".

Fixpoint string_entries (i : nat) (s : string) : obj :=
  match s with
  | EmptyString => []
  | String c r => (dec_of_nat i, JStr (String c EmptyString))
                    :: string_entries (S i) r
  end.

(** The own properties copied by [...v]: an object's properties, a
    string's indexed characters, nothing for a boolean or [undefined]. *)
Definition spread (v : option jsval) : obj :=
  match v with
  | Some (JObj props) => props
  | Some (JStr s) => string_entries 0 s
  | Some (JBool _) | None => []
  end.

Definition dot : ascii := ascii_of_nat 46.

(** [name.includes('.')] and [name.split('.')]. *)
Definition includes_dot (s : string) : bool :=
  existsb (Ascii.eqb dot) (list_ascii_of_string s).

Fixpoint split_dot (s : string) : list string :=
  match s with
  | EmptyString => [EmptyString]
  | String c r =>
      let parts := split_dot r in
      if Ascii.eqb c dot then EmptyString :: parts
      else match parts with
           | p :: ps => String c p :: ps
           | [] => [String c EmptyString]
           end
  end.

(** The fields of [e.target] that [handleInputChange] reads. *)
Record target : Type := mkTarget {
  name : string;
  value : string;
  type_ : string;
  checked : bool
}.

(** Effect on the theme context. *)
Inductive fx : Type := SetTheme (v : string).

(** [handleInputChange]: the [setTheme] call, then the [setFormData]
    updater applied to the previous [formData]. *)
Definition handleInputChange (t : target) (prev : obj) : obj * list fx :=
  let effs := if String.eqb (name t) "theme" then [SetTheme (value t)] else [] in
  let v := if String.eqb (type_ t) "checkbox" then JBool (checked t)
           else JStr (value t) in
  if includes_dot (name t) then
    match split_dot (name t) with
    | parent :: child :: _ =>
        (set_prop prev parent
           (JObj (set_prop (spread (lookup prev parent)) child v)), effs)
    | _ => (prev, effs)
    end
  else (set_prop prev (name t) v, effs).

(** The [useState] initial [formData]; [currentUser?.username || ''] and
    [currentUser?.email || ''] read missing or empty values as ['']. *)
Definition init_formData (username email : option string) (currentTheme : string)
  : obj :=
  [("username", JStr (js_or username ""));
   ("email", JStr (js_or email ""));
   ("bio", JStr "");
   ("theme", JStr currentTheme);
   ("language", JStr "javascript");
   ("fontSize", JStr "14");
   ("notifications", JObj [("email", JBool true); ("push", JBool false);
                           ("collaboration", JBool true)])].

End FormData.

(** ** The [Settings] sections: [settingSections], the sidebar and
    [renderSection] *)

Module Sections.

Inductive section : Type :=
| ProfileSection | NotificationsSection | SecuritySection
| AppearanceSection | EditorSection | GeneralSection.

Record entry : Type := mkEntry { id : string; label : string }.

Definition settingSections : list entry :=
  [mkEntry "profile" "Profile"; mkEntry "notifications" "Notifications";
   mkEntry "security" "Security"; mkEntry "appearance" "Appearance";
   mkEntry "editor" "Editor"; mkEntry "general" "General"].

(** [renderSection]'s [switch (activeSection)]. *)
Definition renderSection (activeSection : string) : section :=
  if String.eqb activeSection "profile" then ProfileSection
  else if String.eqb activeSection "notifications" then NotificationsSection
  else if String.eqb activeSection "security" then SecuritySection
  else if String.eqb activeSection "appearance" then AppearanceSection
  else if String.eqb activeSection "editor" then EditorSection
  else if String.eqb activeSection "general" then GeneralSection
  else ProfileSection.

(** The [$active] flags of the sidebar items, in order. *)
Definition sidebar_active (activeSection : string) : list bool :=
  map (fun e => String.eqb activeSection (id e)) settingSections.

(** A click on the [i]-th sidebar item: [setActiveSection(section.id)];
    there is no item past the last one. *)
Definition click (i : nat) (activeSection : string) : string :=
  match nth_error settingSections i with
  | Some e => id e
  | None => activeSection
  end.

(** [activeSection] after a sequence of clicks from [useState('profile')]. *)
Definition after_clicks (clicks : list nat) : string :=
  fold_left (fun a i => click i a) clicks "profile".

End Sections.

(** ** The [OTPVerification] event machine with the call each event issues *)

Module OTPTrace.

Definition traced_start (u : UI.ui) (r : OTP.state * option call)
  (p : UI.pending) : UI.ui * option call :=
  (UI.start u r p, snd r).

(** [UI.step], also returning the network call the event issues. *)
Definition step_traced (resetToken : option string) (e : UI.event) (u : UI.ui)
  : UI.ui * option call :=
  let s := UI.comp u in
  match e with
  | UI.SubmitOTPForm =>
      if negb (truthy (OTP.verificationToken s)) && negb (OTP.isSubmitting s)
      then traced_start u (OTP.handleVerifyOTP_start resetToken s) UI.PendVerify
      else (u, None)
  | UI.SubmitResetForm =>
      if truthy (OTP.verificationToken s) && negb (OTP.isSubmitting s)
      then traced_start u (OTP.handlePasswordReset_start s) UI.PendReset
      else (u, None)
  | _ => (UI.step resetToken e u, None)
  end.

(** The calls issued by a run, in order. *)
Fixpoint run_calls (resetToken : option string) (evs : list UI.event)
  (u : UI.ui) : list call :=
  match evs with
  | [] => []
  | e :: evs' =>
      let '(u', c) := step_traced resetToken e u in
      match c with
      | Some c => c :: run_calls resetToken evs' u'
      | None => run_calls resetToken evs' u'
      end
  end.

End OTPTrace.

(** ** Sanity checks on concrete inputs *)

Example verify_stores_reset_token :
  OTP.verificationToken
    (fst (OTP.handleVerifyOTP (Some "rt") (Resolved (Some "srv")) OTP.init))
  = Some "rt".
Proof. reflexivity. Qed.

Example checklist_table :
  Settings.requirements "longenough1A!" = [true; true; true; true; true] /\
  Settings.requirements "alllowercase1!" = [true; true; false; true; true] /\
  Settings.requirements "NOLOWER1!" = [true; false; true; true; true] /\
  Settings.requirements "NoNumber!" = [true; true; true; false; true] /\
  Settings.requirements "NoSpecial1A" = [true; true; true; true; false].
Proof. repeat split; reflexivity. Qed.

Example noop_after_checks :
  Settings.passwordError
    (fst (Settings.handlePasswordUpdate (Resolved None)
       (Settings.mkState (Settings.mkPasswordData "Abcdefg1!" "Abcdefg1!" "Abcdefg1!")
          "" "" false)))
  = Settings.noop_message.
Proof. reflexivity. Qed.

Example split_dot_examples :
  FormData.split_dot "notifications.push" = ["notifications"; "push"] /\
  FormData.split_dot "a.b.c" = ["a"; "b"; "c"] /\
  FormData.split_dot "a." = ["a"; ""] /\
  FormData.dec_of_nat 0 = "0" /\ FormData.dec_of_nat 12 = "12".
Proof. repeat split; reflexivity. Qed.

Example toggle_push :
  FormData.lookup
    (fst (FormData.handleInputChange
            (FormData.mkTarget "notifications.push" "on" "checkbox" true)
            (FormData.init_formData (Some "ann") None "dark")))
    "notifications"
  = Some (FormData.JObj [("email", FormData.JBool true);
                         ("push", FormData.JBool true);
                         ("collaboration", FormData.JBool true)]).
Proof. reflexivity. Qed.

Example spread_string_parent :
  fst (FormData.handleInputChange (FormData.mkTarget "bio.x" "v" "text" false)
         [("bio", FormData.JStr "hi")])
  = [("bio", FormData.JObj [("0", FormData.JStr "h"); ("1", FormData.JStr "i");
                            ("x", FormData.JStr "v")])].
Proof. reflexivity. Qed.

(** ** Claims *)

Section OTPClaims.

(** Claim C1 (amended): after [handleVerifyOTP] settles successfully, the
    stored VerificationToken is the [resetToken] prop, whatever value
    [verifyOTP] resolved with; and a later [handlePasswordReset], after the
    user typed any passwords, passes that stored value as the first
    argument of [resetPassword]. *)
Theorem C1_verify_stores_reset_token :
  forall (resetToken v : option string) (s : OTP.state) (pw cpw : string)
         (o : outcome) (c : call),
    let s1 := fst (OTP.handleVerifyOTP resetToken (Resolved v) s) in
    OTP.verificationToken s1 = resetToken /\
    (In (Net c)
        (snd (OTP.handlePasswordReset o
                (OTP.setConfirmPassword cpw (OTP.setNewPassword pw s1)))) ->
     c = ResetPassword resetToken pw).
Proof.
  intros resetToken v s pw cpw o c s1.
  split; [reflexivity |].
  unfold OTP.handlePasswordReset, OTP.handlePasswordReset_start; cbn.
  destruct (String.eqb pw cpw); cbn; [| intros []].
  destruct o; cbn; intros H;
    repeat destruct H as [H | H]; try discriminate; try contradiction;
    congruence.
Qed.

(** Witness of C1: reset token ["rt"], server value ["srv"], matching
    passwords ["Pw1!pass"]. *)
Lemma C1_witness :
  OTP.verificationToken
    (fst (OTP.handleVerifyOTP (Some "rt") (Resolved (Some "srv")) OTP.init))
  = Some "rt" /\
  ResetPassword (Some "rt") "Pw1!pass" = ResetPassword (Some "rt") "Pw1!pass".
Proof.
  pose proof (C1_verify_stores_reset_token (Some "rt") (Some "srv") OTP.init
                "Pw1!pass" "Pw1!pass" (Resolved None)
                (ResetPassword (Some "rt") "Pw1!pass")) as [H1 H2].
  split; [exact H1 |].
  apply H2. cbn. left. reflexivity.
Defined.

(** Claim C1 fails as stated: [verifyOTP] resolves with ["srv"] and the
    stored VerificationToken is the reset token ["rt"], not ["srv"]. *)
Lemma C1_counterexample :
  OTP.verificationToken
    (fst (OTP.handleVerifyOTP (Some "rt") (Resolved (Some "srv")) OTP.init))
  <> Some "srv".
Proof. cbn. intro H. discriminate H. Qed.

End OTPClaims.

Section PolicyClaims.

Lemma in_range_existsb (lo hi : nat) (l : list ascii) :
  existsb (Settings.in_range lo hi) l = true <->
  exists c, In c l /\ lo <= nat_of_ascii c <= hi.
Proof.
  rewrite existsb_exists. unfold Settings.in_range.
  split; intros [c [Hin Hc]]; exists c; split; auto.
  - apply andb_true_iff in Hc as [H1 H2].
    apply Nat.leb_le in H1. apply Nat.leb_le in H2. lia.
  - apply andb_true_iff. split; apply Nat.leb_le; lia.
Qed.

Lemma special_existsb (l : list ascii) :
  existsb Settings.is_special l = true <->
  exists c, In c l /\ In (nat_of_ascii c) Settings.special_codes.
Proof.
  rewrite existsb_exists. unfold Settings.is_special.
  split; intros [c [Hin Hc]]; exists c; split; auto.
  - apply existsb_exists in Hc as [n [Hn Heq]].
    apply Nat.eqb_eq in Heq. subst n. exact Hn.
  - apply existsb_exists. exists (nat_of_ascii c). split; auto.
    apply Nat.eqb_refl.
Qed.

Lemma validatePassword_isValid (p : string) :
  Settings.isValid (Settings.validatePassword p) =
  Nat.leb 8 (String.length p) && Settings.has_lower p && Settings.has_upper p
  && Settings.has_digit p && Settings.has_special p.
Proof.
  unfold Settings.validatePassword.
  destruct (Nat.leb 8 (String.length p)), (Settings.has_lower p),
    (Settings.has_upper p), (Settings.has_digit p), (Settings.has_special p);
    reflexivity.
Qed.

(** Claim C2: for every password [p], the validator reports [p] valid iff
    [p] has at least 8 characters, a lowercase letter a-z, an uppercase
    letter A-Z, a digit 0-9 and a character of the fixed special set; the
    checklist of [renderSecuritySection] exposes the five per-rule booleans,
    each computed from [p] alone, and [p] is valid iff all five are true. *)
Theorem C2_policy_iff_and_checklist :
  forall p : string,
    (Settings.isValid (Settings.validatePassword p) = true <->
       8 <= String.length p /\
       (exists c, In c (list_ascii_of_string p) /\ 97 <= nat_of_ascii c <= 122) /\
       (exists c, In c (list_ascii_of_string p) /\ 65 <= nat_of_ascii c <= 90) /\
       (exists c, In c (list_ascii_of_string p) /\ 48 <= nat_of_ascii c <= 57) /\
       (exists c, In c (list_ascii_of_string p) /\
                  In (nat_of_ascii c) Settings.special_codes)) /\
    Settings.requirements p =
      [Nat.leb 8 (String.length p); Settings.has_lower p; Settings.has_upper p;
       Settings.has_digit p; Settings.has_special p] /\
    Settings.isValid (Settings.validatePassword p) =
      forallb (fun b => b) (Settings.requirements p).
Proof.
  intro p. split; [| split; [reflexivity |]].
  - rewrite validatePassword_isValid.
    rewrite !andb_true_iff, Nat.leb_le.
    unfold Settings.has_lower, Settings.has_upper, Settings.has_digit,
      Settings.has_special.
    rewrite !in_range_existsb, special_existsb.
    tauto.
  - rewrite validatePassword_isValid. cbn.
    rewrite !andb_assoc, andb_true_r. reflexivity.
Qed.

End PolicyClaims.

Section ChangePasswordClaims.

(** The change-password state of the counterexamples: the three fields
    given, no message, not updating. *)
Definition settings_with (cur nw conf : string) : Settings.state :=
  Settings.mkState (Settings.mkPasswordData cur nw conf) "" "" false.

(** Claim C3 (amended): when [currentPassword] equals [newPassword],
    [handlePasswordUpdate] makes no call to [changePassword]; the error it
    reports is that of the first failing local check, in order: missing
    current password, policy violation of the new password, new and
    confirmation differing, and otherwise the NoOpChange error ['New
    password must be different from current password']. *)
Theorem C3_same_password_no_call :
  forall (s : Settings.state) (o : outcome),
    Settings.currentPassword (Settings.pwData s) =
    Settings.newPassword (Settings.pwData s) ->
    let d := Settings.pwData s in
    let '(s1, effs) := Settings.handlePasswordUpdate o s in
    effs = [] /\
    Settings.passwordError s1 =
      (if String.eqb (Settings.currentPassword d) "" then
         "Current password is required"
       else if negb (Settings.isValid (Settings.validatePassword
                                         (Settings.newPassword d))) then
         Settings.vmessage (Settings.validatePassword (Settings.newPassword d))
       else if negb (String.eqb (Settings.newPassword d)
                                (Settings.confirmPassword d)) then
         "New passwords do not match"
       else Settings.noop_message).
Proof.
  intros [[cur nw conf] err succ upd] o Heq; cbn in Heq |- *. subst nw.
  unfold Settings.handlePasswordUpdate, Settings.handlePasswordUpdate_start; cbn.
  rewrite String.eqb_refl.
  destruct (String.eqb cur ""); [split; reflexivity |].
  destruct (negb (Settings.isValid (Settings.validatePassword cur)));
    [split; reflexivity |].
  destruct (negb (String.eqb cur conf)); split; reflexivity.
Qed.

(** Witness of C3: all three fields ["Abcdefg1!"] reach the NoOpChange
    check. *)
Lemma C3_witness :
  let '(s1, effs) := Settings.handlePasswordUpdate (Resolved None)
                       (settings_with "Abcdefg1!" "Abcdefg1!" "Abcdefg1!") in
  effs = [] /\ Settings.passwordError s1 = Settings.noop_message.
Proof.
  exact (C3_same_password_no_call
           (settings_with "Abcdefg1!" "Abcdefg1!" "Abcdefg1!") (Resolved None)
           eq_refl).
Defined.

(** Claim C3 fails as stated: with all three fields ["password"] (no
    uppercase letter, digit or special character) no call is made, but the
    error reported is the policy message, not the NoOpChange error. *)
Lemma C3_counterexample :
  let '(s1, effs) := Settings.handlePasswordUpdate (Resolved None)
                       (settings_with "password" "password" "password") in
  effs = [] /\ Settings.passwordError s1 <> Settings.noop_message.
Proof. cbn. split; [reflexivity | discriminate]. Qed.

(** Claim C5: whenever [handlePasswordUpdate] calls [changePassword] and
    the call is rejected, the three password fields are all the empty
    string afterwards. *)
Theorem C5_remote_failure_clears_fields :
  forall (s : Settings.state) (rmsg msg : option string) (c : call),
    In (Net c) (snd (Settings.handlePasswordUpdate (Rejected rmsg msg) s)) ->
    let s1 := fst (Settings.handlePasswordUpdate (Rejected rmsg msg) s) in
    Settings.currentPassword (Settings.pwData s1) = "" /\
    Settings.newPassword (Settings.pwData s1) = "" /\
    Settings.confirmPassword (Settings.pwData s1) = "".
Proof.
  intros s rmsg msg c.
  unfold Settings.handlePasswordUpdate.
  destruct (Settings.handlePasswordUpdate_start s) as [s1 [c1 |]]; cbn.
  - intros _. repeat split.
  - intros [].
Qed.

(** Witness of C5: fields ["Old1!pass"], ["New1!pass"], ["New1!pass"],
    the server rejects with ["Current password is incorrect"]. *)
Lemma C5_witness :
  Settings.pwData
    (fst (Settings.handlePasswordUpdate
            (Rejected (Some "Current password is incorrect") None)
            (settings_with "Old1!pass" "New1!pass" "New1!pass")))
  = Settings.emptyPasswordData.
Proof.
  destruct (C5_remote_failure_clears_fields
              (settings_with "Old1!pass" "New1!pass" "New1!pass")
              (Some "Current password is incorrect") None
              (ChangePassword "Old1!pass" "New1!pass")) as [H1 [H2 H3]].
  - cbn. left. reflexivity.
  - destruct (Settings.pwData _) as [a b c]; cbn in *.
    rewrite H1, H2, H3. reflexivity.
Defined.

End ChangePasswordClaims.

Section ResetClaims.

(** The reset-flow state of the witnesses: OTP ["123456"], the given
    passwords and stored token, no message, not submitting. *)
Definition otp_with (nw conf : string) (tok : option string) : OTP.state :=
  OTP.mkState "123456" nw conf None None false tok.

(** Claim C4: when [newPassword] and [confirmPassword] differ,
    [handlePasswordReset] only sets the error ['Passwords do not match']:
    it issues no effect (no call to [resetPassword]) and leaves every other
    field as it was. *)
Theorem C4_mismatch_no_call :
  forall (s : OTP.state) (o : outcome),
    OTP.newPassword s <> OTP.confirmPassword s ->
    OTP.handlePasswordReset o s =
      (OTP.setError (Some "Passwords do not match") s, []).
Proof.
  intros s o Hne.
  unfold OTP.handlePasswordReset, OTP.handlePasswordReset_start.
  apply String.eqb_neq in Hne. rewrite Hne. reflexivity.
Qed.

(** Witness of C4: ["Secret1!"] against ["Secret2!"]. *)
Lemma C4_witness :
  OTP.handlePasswordReset (Resolved None)
    (otp_with "Secret1!" "Secret2!" (Some "rt")) =
  (OTP.setError (Some "Passwords do not match")
     (otp_with "Secret1!" "Secret2!" (Some "rt")), []).
Proof.
  apply C4_mismatch_no_call. discriminate.
Defined.

(** Claim C10: [handlePasswordReset] applies no password policy: whenever
    [newPassword] equals [confirmPassword], its first effect is the call
    [resetPassword(verificationToken, newPassword)], whatever the password
    and however the call settles. *)
Theorem C10_reset_skips_policy :
  forall (s : OTP.state) (o : outcome),
    OTP.newPassword s = OTP.confirmPassword s ->
    hd_error (snd (OTP.handlePasswordReset o s)) =
      Some (Net (ResetPassword (OTP.verificationToken s) (OTP.newPassword s))).
Proof.
  intros s o Heq.
  unfold OTP.handlePasswordReset, OTP.handlePasswordReset_start.
  rewrite Heq, String.eqb_refl. cbn.
  destruct (OTP.handlePasswordReset_finish o _). reflexivity.
Qed.

(** Witness of C10: the password ["a"], rejected by the policy, is still
    sent to [resetPassword]. *)
Lemma C10_witness :
  Settings.isValid (Settings.validatePassword "a") = false /\
  hd_error (snd (OTP.handlePasswordReset (Resolved None)
                   (otp_with "a" "a" (Some "rt")))) =
    Some (Net (ResetPassword (Some "rt") "a")).
Proof.
  split; [reflexivity |].
  apply (C10_reset_skips_policy (otp_with "a" "a" (Some "rt")) (Resolved None)).
  reflexivity.
Defined.

End ResetClaims.

Section FieldClaims.

Lemma handlePasswordUpdate_start_local (s : Settings.state) :
  snd (Settings.handlePasswordUpdate_start s) = None ->
  exists e, fst (Settings.handlePasswordUpdate_start s) =
            Settings.setPasswordError e s.
Proof.
  unfold Settings.handlePasswordUpdate_start.
  destruct s as [[cur nw conf] err succ upd]; cbn. intro H.
  destruct (String.eqb cur ""); [cbn; eauto |].
  destruct (negb (Settings.isValid (Settings.validatePassword nw))); [cbn; eauto |].
  destruct (negb (String.eqb nw conf)); [cbn; eauto |].
  destruct (String.eqb cur nw); [cbn; eauto |].
  discriminate H.
Qed.

Lemma handlePasswordReset_start_local (s : OTP.state) :
  snd (OTP.handlePasswordReset_start s) = None ->
  fst (OTP.handlePasswordReset_start s) =
  OTP.setError (Some "Passwords do not match") s.
Proof.
  unfold OTP.handlePasswordReset_start.
  destruct (negb _); [reflexivity | discriminate].
Qed.

(** Claim C6: a local validation failure is a run of the handler whose
    synchronous part issues no call.  In the change-password flow
    ([handlePasswordUpdate]: missing current password, policy violation,
    mismatch, no-op change) and in the reset flow ([handlePasswordReset]:
    mismatch), such a run issues no effect at all and leaves every entered
    field unchanged. *)
Theorem C6_local_failure_keeps_fields :
  (forall (s : Settings.state) (o : outcome),
     snd (Settings.handlePasswordUpdate_start s) = None ->
     snd (Settings.handlePasswordUpdate o s) = [] /\
     Settings.pwData (fst (Settings.handlePasswordUpdate o s)) =
     Settings.pwData s) /\
  (forall (s : OTP.state) (o : outcome),
     snd (OTP.handlePasswordReset_start s) = None ->
     let s1 := fst (OTP.handlePasswordReset o s) in
     snd (OTP.handlePasswordReset o s) = [] /\
     OTP.otp s1 = OTP.otp s /\ OTP.newPassword s1 = OTP.newPassword s /\
     OTP.confirmPassword s1 = OTP.confirmPassword s /\
     OTP.verificationToken s1 = OTP.verificationToken s).
Proof.
  split.
  - intros s o Hnone.
    destruct (handlePasswordUpdate_start_local s Hnone) as [e He].
    unfold Settings.handlePasswordUpdate.
    destruct (Settings.handlePasswordUpdate_start s) as [s1 c]; cbn in *.
    subst c s1. split; reflexivity.
  - intros s o Hnone.
    pose proof (handlePasswordReset_start_local s Hnone) as He.
    unfold OTP.handlePasswordReset.
    destruct (OTP.handlePasswordReset_start s) as [s1 c]; cbn in *.
    subst c s1. repeat split.
Qed.

(** Witness of C6: an empty current password in the change-password flow,
    and ["Secret1!"] against ["Secret2!"] in the reset flow. *)
Lemma C6_witness :
  Settings.pwData (fst (Settings.handlePasswordUpdate (Resolved None)
                          (settings_with "" "New1!pass" "New1!pass"))) =
  Settings.mkPasswordData "" "New1!pass" "New1!pass" /\
  snd (OTP.handlePasswordReset (Resolved None)
         (otp_with "Secret1!" "Secret2!" (Some "rt"))) = [].
Proof.
  destruct C6_local_failure_keeps_fields as [H1 H2]. split.
  - apply (H1 (settings_with "" "New1!pass" "New1!pass") (Resolved None)).
    reflexivity.
  - apply (H2 (otp_with "Secret1!" "Secret2!" (Some "rt")) (Resolved None)).
    reflexivity.
Defined.

(** Claim C8 (amended): in the change-password flow the three password
    fields are cleared once the [changePassword] call settles, on success
    and on failure.  In the reset flow neither [handleVerifyOTP] nor
    [handlePasswordReset] clears the OTP code or the password fields, on
    success or on failure; after a successful reset the component only
    schedules [onBack] after 3000 ms. *)
Theorem C8_clearing_by_flow :
  (forall (s : Settings.state) (o : outcome) (c : call),
     In (Net c) (snd (Settings.handlePasswordUpdate o s)) ->
     Settings.pwData (fst (Settings.handlePasswordUpdate o s)) =
     Settings.emptyPasswordData) /\
  (forall (resetToken : option string) (o : outcome) (s : OTP.state),
     let s1 := fst (OTP.handleVerifyOTP resetToken o s) in
     OTP.otp s1 = OTP.otp s /\ OTP.newPassword s1 = OTP.newPassword s /\
     OTP.confirmPassword s1 = OTP.confirmPassword s) /\
  (forall (o : outcome) (s : OTP.state),
     let s1 := fst (OTP.handlePasswordReset o s) in
     OTP.otp s1 = OTP.otp s /\ OTP.newPassword s1 = OTP.newPassword s /\
     OTP.confirmPassword s1 = OTP.confirmPassword s) /\
  (forall (v : option string) (s : OTP.state),
     OTP.newPassword s = OTP.confirmPassword s ->
     snd (OTP.handlePasswordReset (Resolved v) s) =
     [Net (ResetPassword (OTP.verificationToken s) (OTP.newPassword s));
      SetTimeoutOnBack 3000]).
Proof.
  split; [| split; [| split]].
  - intros s o c.
    unfold Settings.handlePasswordUpdate.
    destruct (Settings.handlePasswordUpdate_start s) as [s1 [c1 |]]; cbn;
      [| intros []].
    intros _. destruct o; reflexivity.
  - intros resetToken o s. destruct o; repeat split.
  - intros o s.
    unfold OTP.handlePasswordReset, OTP.handlePasswordReset_start.
    destruct (negb _); [repeat split |].
    destruct o; repeat split.
  - intros v s Heq.
    unfold OTP.handlePasswordReset, OTP.handlePasswordReset_start.
    rewrite Heq, String.eqb_refl. reflexivity.
Qed.

(** Witness of C8: matching passwords ["Secret1!"] with stored token
    ["rt"], reset resolved. *)
Lemma C8_witness :
  snd (OTP.handlePasswordReset (Resolved None)
         (otp_with "Secret1!" "Secret1!" (Some "rt"))) =
  [Net (ResetPassword (Some "rt") "Secret1!"); SetTimeoutOnBack 3000] /\
  Settings.pwData (fst (Settings.handlePasswordUpdate (Resolved None)
                          (settings_with "Old1!pass" "New1!pass" "New1!pass"))) =
  Settings.emptyPasswordData.
Proof.
  destruct C8_clearing_by_flow as [H1 [_ [_ H4]]]. split.
  - apply (H4 None (otp_with "Secret1!" "Secret1!" (Some "rt"))).
    reflexivity.
  - apply (H1 (settings_with "Old1!pass" "New1!pass" "New1!pass")
              (Resolved None) (ChangePassword "Old1!pass" "New1!pass")).
    cbn. left. reflexivity.
Defined.

(** Claim C8 fails as stated: after [handleVerifyOTP] succeeds the OTP code
    ["123456"] is still held, and after [handlePasswordReset] succeeds the
    new password ["Secret1!"] and its confirmation are still held. *)
Lemma C8_counterexample :
  OTP.otp (fst (OTP.handleVerifyOTP (Some "rt") (Resolved None)
                  (otp_with "" "" None))) = "123456" /\
  OTP.newPassword (fst (OTP.handlePasswordReset (Resolved None)
                          (otp_with "Secret1!" "Secret1!" (Some "rt"))))
  = "Secret1!" /\
  OTP.confirmPassword (fst (OTP.handlePasswordReset (Resolved None)
                              (otp_with "Secret1!" "Secret1!" (Some "rt"))))
  = "Secret1!".
Proof. repeat split. Qed.

End FieldClaims.

Section UIClaims.

(** The submission invariant: the instance is either idle with nothing in
    flight, or submitting with exactly one call in flight. *)
Definition submit_inv (u : UI.ui) : Prop :=
  (OTP.isSubmitting (UI.comp u) = false /\ UI.inflight u = []) \/
  (OTP.isSubmitting (UI.comp u) = true /\ exists p, UI.inflight u = [p]).

Lemma submit_inv_init : submit_inv UI.init.
Proof. left. split; reflexivity. Qed.

Lemma submit_inv_step (resetToken : option string) (e : UI.event) (u : UI.ui) :
  submit_inv u -> submit_inv (UI.step resetToken e u).
Proof.
  destruct u as [s infl].
  intros [[Hs Hi] | [Hs [p Hi]]]; cbn in Hs, Hi; subst infl.
  - destruct e as [| | o |]; cbn; rewrite ?Hs, ?andb_true_r.
    + destruct (negb (truthy (OTP.verificationToken s))); cbn.
      * right. split; [reflexivity | eexists; reflexivity].
      * left. auto.
    + destruct (truthy (OTP.verificationToken s)); cbn; [| left; auto].
      unfold OTP.handlePasswordReset_start.
      destruct (negb (String.eqb (OTP.newPassword s) (OTP.confirmPassword s))); cbn.
      * left. auto.
      * right. split; [reflexivity | eexists; reflexivity].
    + left. auto.
    + apply submit_inv_init.
  - destruct e as [| | o |]; cbn; rewrite ?Hs, ?andb_false_r.
    + right. split; [exact Hs | eexists; reflexivity].
    + right. split; [exact Hs | eexists; reflexivity].
    + left. destruct p; cbn; split; try reflexivity.
      * destruct o; reflexivity.
      * destruct o; reflexivity.
    + apply submit_inv_init.
Qed.

Lemma submit_inv_run (resetToken : option string) (evs : list UI.event) :
  forall u, submit_inv u -> submit_inv (UI.run resetToken evs u).
Proof.
  induction evs as [| e evs IH]; intros u Hu; cbn; [exact Hu |].
  apply IH. apply submit_inv_step. exact Hu.
Qed.

(** Claim C7: in every state the rendered component reaches from its
    initial state, whatever the events (form submissions, settling calls,
    back clicks), at most one of its network calls is in flight; and while
    [isSubmitting] is set a submission of either form is ignored. *)
Theorem C7_single_inflight :
  forall (resetToken : option string) (evs : list UI.event),
    let u := UI.run resetToken evs UI.init in
    length (UI.inflight u) <= 1 /\
    (OTP.isSubmitting (UI.comp u) = true ->
     UI.step resetToken UI.SubmitOTPForm u = u /\
     UI.step resetToken UI.SubmitResetForm u = u).
Proof.
  intros resetToken evs u.
  split.
  - destruct (submit_inv_run resetToken evs UI.init submit_inv_init)
      as [[_ Hi] | [_ [p Hi]]]; fold u in Hi; rewrite Hi; cbn; lia.
  - intros Hs. unfold UI.step. rewrite Hs, !andb_false_r. split; reflexivity.
Qed.

(** Witness of C7: two OTP submissions in a row; the second is ignored and
    a single [verifyOTP] call is in flight. *)
Lemma C7_witness :
  UI.inflight (UI.run (Some "rt") [UI.SubmitOTPForm; UI.SubmitOTPForm] UI.init)
  = [UI.PendVerify] /\
  UI.step (Some "rt") UI.SubmitOTPForm
    (UI.run (Some "rt") [UI.SubmitOTPForm] UI.init) =
  UI.run (Some "rt") [UI.SubmitOTPForm] UI.init.
Proof.
  split; [reflexivity |].
  apply (proj2 (C7_single_inflight (Some "rt") [UI.SubmitOTPForm])).
  reflexivity.
Defined.

(** Claim C9: the back action, from any state and in particular from
    [AwaitingNewPassword], leaves the controller in [AwaitingOTP] with no
    stored VerificationToken and nothing in flight; in [AwaitingOTP] the
    reset form is not rendered, so its submission is impossible; and the
    only event that leaves [AwaitingOTP] for [AwaitingNewPassword] is a
    successful settling of a [verifyOTP] call. *)
Theorem C9_back_discards_token :
  forall (resetToken : option string) (u : UI.ui),
    let u1 := UI.step resetToken UI.ClickBack u in
    OTP.phase_of (UI.comp u1) = OTP.AwaitingOTP /\
    OTP.verificationToken (UI.comp u1) = None /\
    UI.inflight u1 = [] /\
    (forall v : UI.ui,
       OTP.phase_of (UI.comp v) = OTP.AwaitingOTP ->
       UI.step resetToken UI.SubmitResetForm v = v) /\
    (forall (e : UI.event) (v : UI.ui),
       OTP.phase_of (UI.comp v) = OTP.AwaitingOTP ->
       OTP.phase_of (UI.comp (UI.step resetToken e v)) = OTP.AwaitingNewPassword ->
       exists val rest, e = UI.Settle (Resolved val) /\
                        UI.inflight v = UI.PendVerify :: rest).
Proof.
  intros resetToken u u1.
  split; [reflexivity | split; [reflexivity | split; [reflexivity | split]]].
  - intros [s infl] Hp. unfold OTP.phase_of in Hp. cbn in Hp |- *.
    destruct (truthy (OTP.verificationToken s)); [discriminate Hp | reflexivity].
  - intros e [s infl] Hp Hp'. unfold OTP.phase_of in Hp, Hp'. cbn in Hp, Hp'.
    destruct (truthy (OTP.verificationToken s)) eqn:Ht; [discriminate Hp |].
    destruct e as [| | o |]; cbn in Hp'.
    + rewrite Ht in Hp'. cbn in Hp'.
      destruct (OTP.isSubmitting s); cbn in Hp'; rewrite ?Ht in Hp';
        discriminate Hp'.
    + rewrite Ht in Hp'. cbn in Hp'. rewrite ?Ht in Hp'. discriminate Hp'.
    + destruct infl as [| [|] rest]; cbn in Hp'.
      * rewrite ?Ht in Hp'. discriminate Hp'.
      * destruct o as [val | rm m]; [exists val, rest; split; reflexivity |].
        cbn in Hp'. rewrite ?Ht in Hp'. discriminate Hp'.
      * destruct o; cbn in Hp'; rewrite ?Ht in Hp'; discriminate Hp'.
    + discriminate Hp'.
Qed.

(** Witness of C9: verify succeeds with reset token ["rt"], back is
    clicked, and a reset submission is then ignored. *)
Lemma C9_witness :
  let u1 := UI.step (Some "rt") UI.ClickBack
              (UI.run (Some "rt") [UI.SubmitOTPForm; UI.Settle (Resolved None)]
                 UI.init) in
  UI.step (Some "rt") UI.SubmitResetForm u1 = u1.
Proof.
  destruct (C9_back_discards_token (Some "rt")
              (UI.run (Some "rt") [UI.SubmitOTPForm; UI.Settle (Resolved None)]
                 UI.init)) as [Hp [_ [_ [H _]]]].
  apply H. exact Hp.
Defined.

End UIClaims.

(** ** Further properties of the code *)

Section ChangePasswordExtras.

(** Claim-independent reading of a password field. *)
Definition field_value (f : PasswordForm.pw_field) (d : Settings.passwordData)
  : string :=
  match f with
  | PasswordForm.FCurrent => Settings.currentPassword d
  | PasswordForm.FNew => Settings.newPassword d
  | PasswordForm.FConfirm => Settings.confirmPassword d
  end.

(** [handlePasswordUpdate] calls [changePassword] exactly when the current
    password is non-empty, the new password passes [validatePassword], the
    confirmation equals the new password and the new password differs from
    the current one; the call then carries the current and new passwords. *)
Theorem X_change_call_conditions :
  forall s : Settings.state,
    let d := Settings.pwData s in
    ((exists c, snd (Settings.handlePasswordUpdate_start s) = Some c) <->
       Settings.currentPassword d <> "" /\
       Settings.isValid (Settings.validatePassword (Settings.newPassword d)) = true /\
       Settings.newPassword d = Settings.confirmPassword d /\
       Settings.currentPassword d <> Settings.newPassword d) /\
    (forall c, snd (Settings.handlePasswordUpdate_start s) = Some c ->
       c = ChangePassword (Settings.currentPassword d) (Settings.newPassword d)).
Proof.
  intros [[cur nw conf] err succ upd] d. subst d.
  unfold Settings.handlePasswordUpdate_start; cbn.
  destruct (String.eqb cur "") eqn:E1.
  { apply String.eqb_eq in E1. split; [| intros c H; discriminate H].
    split; [intros [c H]; discriminate H | intros [H _]; contradiction]. }
  apply String.eqb_neq in E1.
  destruct (Settings.isValid (Settings.validatePassword nw)) eqn:E2; cbn.
  2:{ split; [| intros c H; discriminate H].
      split; [intros [c H]; discriminate H | intros [_ [H _]]; discriminate H]. }
  destruct (String.eqb nw conf) eqn:E3; cbn.
  2:{ apply String.eqb_neq in E3. split; [| intros c H; discriminate H].
      split; [intros [c H]; discriminate H | intros [_ [_ [H _]]]; contradiction]. }
  apply String.eqb_eq in E3.
  destruct (String.eqb cur nw) eqn:E4.
  { apply String.eqb_eq in E4. split; [| intros c H; discriminate H].
    split; [intros [c H]; discriminate H | intros [_ [_ [_ H]]]; contradiction]. }
  apply String.eqb_neq in E4.
  split.
  - split; [intros _; auto | intros _; eexists; reflexivity].
  - intros c H. injection H as <-. reflexivity.
Qed.

(** Witness: ["Old1!pass"] to ["New1!pass"] is sent. *)
Lemma X_change_call_conditions_witness :
  exists c, snd (Settings.handlePasswordUpdate_start
                   (settings_with "Old1!pass" "New1!pass" "New1!pass")) = Some c.
Proof.
  apply (proj2 (proj1 (X_change_call_conditions
                         (settings_with "Old1!pass" "New1!pass" "New1!pass")))).
  cbn. split; [discriminate | split; [reflexivity | split; [reflexivity | discriminate]]].
Defined.

Lemma handlePasswordChange_spec :
  forall (f : PasswordForm.pw_field) (v : string) (s : Settings.state),
    let s1 := PasswordForm.handlePasswordChange f v s in
    field_value f (Settings.pwData s1) = v /\
    (forall g, g <> f ->
       field_value g (Settings.pwData s1) = field_value g (Settings.pwData s)) /\
    Settings.passwordError s1 = "" /\
    Settings.passwordSuccess s1 = "" /\
    Settings.isUpdatingPassword s1 = Settings.isUpdatingPassword s.
Proof.
  intros f v [[cur nw conf] err succ upd] s1. subst s1.
  unfold PasswordForm.handlePasswordChange; cbn.
  destruct (String.eqb err "") eqn:Ee, (String.eqb succ "") eqn:Es; cbn;
    try apply String.eqb_eq in Ee; try apply String.eqb_eq in Es; subst;
    destruct f; cbn;
    (split; [reflexivity | split; [intros [] Hg; cbn; congruence |
                                   split; [reflexivity | split; reflexivity]]]).
Qed.

(** [handlePasswordChange] sets the typed field, leaves the two others and
    the updating flag as they were, and leaves no error and no success
    message displayed. *)
Theorem X_handlePasswordChange_effect :
  forall (f : PasswordForm.pw_field) (v : string) (s : Settings.state),
    let s1 := PasswordForm.handlePasswordChange f v s in
    field_value f (Settings.pwData s1) = v /\
    (forall g, g <> f ->
       field_value g (Settings.pwData s1) = field_value g (Settings.pwData s)) /\
    Settings.passwordError s1 = "" /\
    Settings.passwordSuccess s1 = "" /\
    Settings.isUpdatingPassword s1 = Settings.isUpdatingPassword s.
Proof. exact handlePasswordChange_spec. Qed.

(** The error shown after a rejected [changePassword] call: the server's
    message if non-empty, else the error's own message if non-empty, else
    ['Failed to update password']. *)
Theorem X_change_error_fallback :
  forall (s : Settings.state) (c : call) (rm m : option string),
    In (Net c) (snd (Settings.handlePasswordUpdate (Rejected rm m) s)) ->
    let e := Settings.passwordError
               (fst (Settings.handlePasswordUpdate (Rejected rm m) s)) in
    (forall r, rm = Some r -> r <> "" -> e = r) /\
    ((rm = None \/ rm = Some "") ->
       (forall x, m = Some x -> x <> "" -> e = x) /\
       ((m = None \/ m = Some "") -> e = "Failed to update password")).
Proof.
  intros s c rm m Hin.
  unfold Settings.handlePasswordUpdate in *.
  destruct (Settings.handlePasswordUpdate_start s) as [s1 [c1 |]];
    cbn in *; [| contradiction].
  split.
  - intros r -> Hr. cbn. apply String.eqb_neq in Hr. rewrite Hr. reflexivity.
  - intros Hrm.
    assert (Hj : forall b, js_or rm b = b)
      by (destruct Hrm as [-> | ->]; reflexivity).
    rewrite Hj. split.
    + intros x -> Hx. cbn. apply String.eqb_neq in Hx. rewrite Hx. reflexivity.
    + intros [-> | ->]; reflexivity.
Qed.

(** Witness: the server sends an empty message and the error's own message
    is ["Network Error"]. *)
Lemma X_change_error_fallback_witness :
  Settings.passwordError
    (fst (Settings.handlePasswordUpdate (Rejected (Some "") (Some "Network Error"))
            (settings_with "Old1!pass" "New1!pass" "New1!pass")))
  = "Network Error".
Proof.
  destruct (X_change_error_fallback
              (settings_with "Old1!pass" "New1!pass" "New1!pass")
              (ChangePassword "Old1!pass" "New1!pass")
              (Some "") (Some "Network Error")) as [_ H].
  - cbn. left. reflexivity.
  - apply (proj1 (H (or_intror eq_refl))); [reflexivity | discriminate].
Defined.

End ChangePasswordExtras.

Section PasswordFormExtras.

(** Witness: typing ["x"] into the confirmation field of a form showing an
    error keeps the new password and clears the error. *)
Lemma X_handlePasswordChange_effect_witness :
  field_value PasswordForm.FNew
    (Settings.pwData (PasswordForm.handlePasswordChange PasswordForm.FConfirm "x"
       (Settings.setPasswordError "New passwords do not match"
          (settings_with "Old1!pass" "New1!pass" "New2!pass")))) = "New1!pass".
Proof.
  destruct (X_handlePasswordChange_effect PasswordForm.FConfirm "x"
              (Settings.setPasswordError "New passwords do not match"
                 (settings_with "Old1!pass" "New1!pass" "New2!pass")))
    as [_ [H _]].
  apply H. discriminate.
Defined.

Definition form_inv (u : PasswordForm.form) : Prop :=
  (Settings.isUpdatingPassword (PasswordForm.fstate u) = false /\
   PasswordForm.inflight u = []) \/
  (Settings.isUpdatingPassword (PasswordForm.fstate u) = true /\
   exists c, PasswordForm.inflight u = [c]).

Lemma handlePasswordUpdate_start_updating (s : Settings.state) :
  Settings.isUpdatingPassword s = false ->
  match snd (Settings.handlePasswordUpdate_start s) with
  | Some _ => Settings.isUpdatingPassword (fst (Settings.handlePasswordUpdate_start s)) = true
  | None => Settings.isUpdatingPassword (fst (Settings.handlePasswordUpdate_start s)) = false
  end.
Proof.
  intro Hu. destruct (snd (Settings.handlePasswordUpdate_start s)) eqn:Hc.
  - unfold Settings.handlePasswordUpdate_start in *.
    destruct (String.eqb _ ""); [discriminate Hc |].
    cbn in *.
    destruct (negb (Settings.isValid _)); [discriminate Hc |].
    destruct (negb (String.eqb _ _)); [discriminate Hc |].
    destruct (String.eqb _ _); [discriminate Hc | reflexivity].
  - destruct (handlePasswordUpdate_start_local s Hc) as [e ->]. exact Hu.
Qed.

Lemma form_inv_step (e : PasswordForm.event) (u : PasswordForm.form) :
  form_inv u -> form_inv (PasswordForm.step e u).
Proof.
  destruct u as [s infl].
  intros [[Hs Hi] | [Hs [c Hi]]]; cbn in Hs, Hi; subst infl.
  - destruct e as [f v | | o];
    unfold PasswordForm.step; cbn [PasswordForm.fstate PasswordForm.inflight].
    + left. split; [| reflexivity].
      cbn -[PasswordForm.handlePasswordChange].
      destruct (handlePasswordChange_spec f v s) as [_ [_ [_ [_ ->]]]].
      exact Hs.
    + rewrite Hs.
      pose proof (handlePasswordUpdate_start_updating s Hs) as H.
      destruct (Settings.handlePasswordUpdate_start s) as [s1 [c1 |]]; cbn in *.
      * right. split; [exact H | eexists; reflexivity].
      * left. split; [exact H | reflexivity].
    + left. split; [exact Hs | reflexivity].
  - destruct e as [f v | | o];
    unfold PasswordForm.step; cbn [PasswordForm.fstate PasswordForm.inflight].
    + right. split; [| eexists; reflexivity].
      cbn -[PasswordForm.handlePasswordChange].
      destruct (handlePasswordChange_spec f v s) as [_ [_ [_ [_ ->]]]].
      exact Hs.
    + rewrite Hs. right. split; [exact Hs | eexists; reflexivity].
    + left. split; [destruct o; reflexivity | reflexivity].
Qed.

Lemma form_inv_run (evs : list PasswordForm.event) :
  forall u, form_inv u -> form_inv (PasswordForm.run evs u).
Proof.
  induction evs as [| e evs IH]; intros u Hu; cbn; [exact Hu |].
  apply IH, form_inv_step, Hu.
Qed.

(** In every state the security form reaches, whatever is typed, submitted
    or settled, at most one [changePassword] call is in flight, and while
    [isUpdatingPassword] is set a submission is ignored. *)
Theorem X_form_single_inflight :
  forall evs : list PasswordForm.event,
    let u := PasswordForm.run evs PasswordForm.init in
    length (PasswordForm.inflight u) <= 1 /\
    (Settings.isUpdatingPassword (PasswordForm.fstate u) = true ->
     PasswordForm.step PasswordForm.SubmitPasswordForm u = u).
Proof.
  intros evs u. split.
  - assert (Hi : form_inv PasswordForm.init) by (left; split; reflexivity).
    destruct (form_inv_run evs _ Hi) as [[_ H] | [_ [c H]]]; fold u in H;
      rewrite H; cbn; lia.
  - intros Hs. unfold PasswordForm.step. rewrite Hs. reflexivity.
Qed.

(** Witness: a valid change submitted twice before it settles; the second
    submission is ignored. *)
Lemma X_form_single_inflight_witness :
  let evs := [PasswordForm.TypeInto PasswordForm.FCurrent "Old1!pass";
              PasswordForm.TypeInto PasswordForm.FNew "New1!pass";
              PasswordForm.TypeInto PasswordForm.FConfirm "New1!pass";
              PasswordForm.SubmitPasswordForm] in
  PasswordForm.step PasswordForm.SubmitPasswordForm
    (PasswordForm.run evs PasswordForm.init) =
  PasswordForm.run evs PasswordForm.init.
Proof.
  intro evs. apply (proj2 (X_form_single_inflight evs)). reflexivity.
Defined.

(** The password inputs stay editable while a [changePassword] call is in
    flight, but whatever is typed then is lost: when the call settles, on
    success or failure, the three fields are empty. *)
Theorem X_typed_during_flight_discarded :
  forall (u : PasswordForm.form) (f : PasswordForm.pw_field) (v : string)
         (o : outcome),
    PasswordForm.inflight u <> [] ->
    let u1 := PasswordForm.step (PasswordForm.TypeInto f v) u in
    field_value f (Settings.pwData (PasswordForm.fstate u1)) = v /\
    Settings.pwData (PasswordForm.fstate (PasswordForm.step (PasswordForm.SettleChange o) u1))
    = Settings.emptyPasswordData.
Proof.
  intros [s infl] f v o Hne u1. subst u1. cbn.
  split; [apply handlePasswordChange_spec |].
  destruct infl as [| c rest]; [contradiction Hne; reflexivity |].
  destruct o; reflexivity.
Qed.

(** Witness: ["Other1!"] typed into the new-password field during the call
    of the previous witness. *)
Lemma X_typed_during_flight_discarded_witness :
  Settings.pwData (PasswordForm.fstate
    (PasswordForm.step (PasswordForm.SettleChange (Resolved None))
       (PasswordForm.step (PasswordForm.TypeInto PasswordForm.FNew "Other1!")
          (PasswordForm.mkForm
             (Settings.setIsUpdatingPassword true
                (settings_with "Old1!pass" "New1!pass" "New1!pass"))
             [ChangePassword "Old1!pass" "New1!pass"]))))
  = Settings.emptyPasswordData.
Proof.
  apply (X_typed_during_flight_discarded
           (PasswordForm.mkForm
              (Settings.setIsUpdatingPassword true
                 (settings_with "Old1!pass" "New1!pass" "New1!pass"))
              [ChangePassword "Old1!pass" "New1!pass"])
           PasswordForm.FNew "Other1!" (Resolved None)).
  discriminate.
Defined.

End PasswordFormExtras.

Section OTPExtras.

Lemma step_traced_fst (resetToken : option string) (e : UI.event) (u : UI.ui) :
  fst (OTPTrace.step_traced resetToken e u) = UI.step resetToken e u.
Proof.
  destruct e; unfold OTPTrace.step_traced, UI.step; try reflexivity;
    destruct (_ && _); reflexivity.
Qed.

(** The stored token is never anything but [null] or the [resetToken]
    prop. *)
Definition tok_inv (resetToken : option string) (u : UI.ui) : Prop :=
  OTP.verificationToken (UI.comp u) = None \/
  OTP.verificationToken (UI.comp u) = resetToken.

Lemma tok_inv_step (resetToken : option string) (e : UI.event) (u : UI.ui) :
  tok_inv resetToken u -> tok_inv resetToken (UI.step resetToken e u).
Proof.
  destruct u as [s infl]. unfold tok_inv. cbn. intros Hs.
  destruct e as [| | o |]; cbn.
  - destruct (_ && _); exact Hs.
  - destruct (_ && _); [| exact Hs].
    unfold OTP.handlePasswordReset_start. destruct (negb _); exact Hs.
  - destruct infl as [| [|] rest]; cbn; [exact Hs | destruct o; cbn; auto |].
    destruct o; exact Hs.
  - left. reflexivity.
Qed.

Lemma tok_inv_run (resetToken : option string) (evs : list UI.event) :
  forall u, tok_inv resetToken u -> tok_inv resetToken (UI.run resetToken evs u).
Proof.
  induction evs as [| e evs IH]; intros u Hu; cbn; [exact Hu |].
  apply IH, tok_inv_step, Hu.
Qed.

(** What a call of the component carries: [verifyOTP] gets the
    [resetToken] prop; [resetPassword] gets it too, and only when it is a
    non-empty string. *)
Definition carries_reset_token (resetToken : option string) (c : call) : Prop :=
  match c with
  | VerifyOTP t _ => t = resetToken
  | ResetPassword t _ => t = resetToken /\ truthy resetToken = true
  | ChangePassword _ _ => False
  end.

Lemma run_calls_carry (resetToken : option string) (evs : list UI.event) :
  forall u, tok_inv resetToken u ->
  forall c, In c (OTPTrace.run_calls resetToken evs u) ->
  carries_reset_token resetToken c.
Proof.
  induction evs as [| e evs IH]; intros u Hu c Hc; cbn in Hc; [contradiction |].
  assert (Hc' : forall c0, snd (OTPTrace.step_traced resetToken e u) = Some c0 ->
                           carries_reset_token resetToken c0).
  { intros c0 Hs. destruct u as [s infl]. unfold tok_inv in Hu. cbn in Hu.
    destruct e; unfold OTPTrace.step_traced in Hs; cbn in Hs; try discriminate Hs.
    - destruct (_ && _); cbn in Hs; [| discriminate Hs].
      injection Hs as <-. reflexivity.
    - destruct (truthy (OTP.verificationToken s)) eqn:Htr; cbn in Hs;
        [| discriminate Hs].
      destruct (OTP.isSubmitting s); cbn in Hs; [discriminate Hs |].
      unfold OTP.handlePasswordReset_start in Hs.
      destruct (negb _); cbn in Hs; [discriminate Hs |].
      injection Hs as <-. cbn.
      destruct Hu as [Hn | Hr]; [rewrite Hn in Htr; discriminate Htr |].
      rewrite Hr in Htr |- *. split; [reflexivity | exact Htr]. }
  pose proof (step_traced_fst resetToken e u) as Hf.
  destruct (OTPTrace.step_traced resetToken e u) as [u' c'] eqn:Ht.
  cbn in Hf, Hc'. subst u'.
  destruct c' as [c0 |].
  - destruct Hc as [<- | Hc]; [apply Hc'; reflexivity |].
    apply (IH _ (tok_inv_step resetToken e u Hu) c Hc).
  - apply (IH _ (tok_inv_step resetToken e u Hu) c Hc).
Qed.

(** Over any run of the rendered component, every [verifyOTP] call
    carries the [resetToken] prop, and every [resetPassword] call carries
    it too, never [null], a missing or an empty token. *)
Theorem X_calls_carry_reset_token :
  forall (resetToken : option string) (evs : list UI.event) (c : call),
    In c (OTPTrace.run_calls resetToken evs UI.init) ->
    carries_reset_token resetToken c.
Proof.
  intros resetToken evs c.
  apply run_calls_carry. left. reflexivity.
Qed.

(** Witness: verify, settle, submit the (empty, matching) passwords. *)
Lemma X_calls_carry_reset_token_witness :
  carries_reset_token (Some "rt") (ResetPassword (Some "rt") "").
Proof.
  apply (X_calls_carry_reset_token (Some "rt")
           [UI.SubmitOTPForm; UI.Settle (Resolved None); UI.SubmitResetForm]).
  cbn. right. left. reflexivity.
Defined.

(** If the [resetToken] prop is [null], missing or the empty string, the
    component never leaves the OTP form, even after [verifyOTP] succeeds,
    and the only calls it ever issues are [verifyOTP] calls. *)
Theorem X_falsy_reset_token_stuck :
  forall (resetToken : option string) (evs : list UI.event),
    truthy resetToken = false ->
    OTP.phase_of (UI.comp (UI.run resetToken evs UI.init)) = OTP.AwaitingOTP /\
    (forall c, In c (OTPTrace.run_calls resetToken evs UI.init) ->
       exists o, c = VerifyOTP resetToken o).
Proof.
  intros resetToken evs Hf. split.
  - assert (Hi : tok_inv resetToken UI.init) by (left; reflexivity).
    unfold OTP.phase_of.
    destruct (tok_inv_run resetToken evs _ Hi) as [-> | ->];
      [reflexivity | rewrite Hf; reflexivity].
  - intros c Hc.
    pose proof (run_calls_carry resetToken evs UI.init
                  (or_introl eq_refl) c Hc) as H.
    destruct c as [t o | t p | a b]; cbn in H.
    + subst t. eauto.
    + destruct H as [_ H]. rewrite Hf in H. discriminate H.
    + contradiction.
Qed.

(** Witness: the empty reset token; verification succeeds. *)
Lemma X_falsy_reset_token_stuck_witness :
  OTP.phase_of (UI.comp (UI.run (Some "")
     [UI.SubmitOTPForm; UI.Settle (Resolved None); UI.SubmitResetForm] UI.init))
  = OTP.AwaitingOTP.
Proof.
  apply (X_falsy_reset_token_stuck (Some "")
           [UI.SubmitOTPForm; UI.Settle (Resolved None); UI.SubmitResetForm]).
  reflexivity.
Defined.

End OTPExtras.

Section OTPHandlerExtras.

(** A mismatch error is not cleared by a later successful reset: after a
    mismatched submission, correcting the confirmation and resubmitting
    successfully shows the success message while the ['Passwords do not
    match'] error is still set. *)
Theorem X_stale_mismatch_error :
  forall (s : OTP.state) (o v : option string),
    OTP.newPassword s <> OTP.confirmPassword s ->
    let s1 := fst (OTP.handlePasswordReset (Resolved o) s) in
    let s2 := OTP.setConfirmPassword (OTP.newPassword s) s1 in
    let s3 := fst (OTP.handlePasswordReset (Resolved v) s2) in
    OTP.error s3 = Some "Passwords do not match" /\
    OTP.message s3 = Some OTP.reset_success_message.
Proof.
  intros s o v Hne s1 s2 s3. subst s1 s2 s3.
  assert (H1 : OTP.handlePasswordReset (Resolved o) s =
                (OTP.setError (Some "Passwords do not match") s, [])).
  { unfold OTP.handlePasswordReset, OTP.handlePasswordReset_start.
    apply String.eqb_neq in Hne. rewrite Hne. reflexivity. }
  rewrite H1. cbn.
  unfold OTP.handlePasswordReset, OTP.handlePasswordReset_start. cbn.
  rewrite String.eqb_refl. cbn. split; reflexivity.
Qed.

(** Witness: ["Secret1!"] confirmed as ["Secret2!"], then corrected. *)
Lemma X_stale_mismatch_error_witness :
  OTP.error (fst (OTP.handlePasswordReset (Resolved None)
    (OTP.setConfirmPassword "Secret1!"
       (fst (OTP.handlePasswordReset (Resolved None)
               (otp_with "Secret1!" "Secret2!" (Some "rt")))))))
  = Some "Passwords do not match".
Proof.
  apply (X_stale_mismatch_error (otp_with "Secret1!" "Secret2!" (Some "rt"))
           None None).
  discriminate.
Defined.

(** A rejected [resetPassword] call keeps the reset form (the stored token
    is unchanged), re-enables it, schedules no [onBack], and shows the
    server's message if non-empty, else ['Password reset failed']. *)
Theorem X_reset_failure_stays :
  forall (s : OTP.state) (rm m : option string),
    OTP.newPassword s = OTP.confirmPassword s ->
    let '(s1, effs) := OTP.handlePasswordReset (Rejected rm m) s in
    effs = [Net (ResetPassword (OTP.verificationToken s) (OTP.newPassword s))] /\
    OTP.verificationToken s1 = OTP.verificationToken s /\
    OTP.phase_of s1 = OTP.phase_of s /\
    OTP.isSubmitting s1 = false /\
    (forall r, rm = Some r -> r <> "" -> OTP.error s1 = Some r) /\
    ((rm = None \/ rm = Some "") -> OTP.error s1 = Some "Password reset failed").
Proof.
  intros s rm m Heq.
  unfold OTP.handlePasswordReset, OTP.handlePasswordReset_start.
  rewrite Heq, String.eqb_refl. cbn.
  split; [reflexivity | split; [reflexivity | split; [reflexivity |
    split; [reflexivity | split]]]].
  - intros r -> Hr. cbn. apply String.eqb_neq in Hr. rewrite Hr. reflexivity.
  - intros [-> | ->]; reflexivity.
Qed.

(** Witness: the server rejects with ["Token expired"]. *)
Lemma X_reset_failure_stays_witness :
  OTP.error (fst (OTP.handlePasswordReset (Rejected (Some "Token expired") None)
                    (otp_with "Secret1!" "Secret1!" (Some "rt"))))
  = Some "Token expired".
Proof.
  pose proof (X_reset_failure_stays (otp_with "Secret1!" "Secret1!" (Some "rt"))
                (Some "Token expired") None eq_refl) as H.
  destruct (OTP.handlePasswordReset _ _) as [s1 effs].
  destruct H as [_ [_ [_ [_ [H _]]]]].
  apply H; [reflexivity | discriminate].
Defined.

(** A rejected [verifyOTP] call leaves the stored token, hence the form
    shown, unchanged, re-enables the OTP form, and shows the server's
    message if non-empty, else ['OTP verification failed']. *)
Theorem X_verify_failure_stays :
  forall (resetToken : option string) (s : OTP.state) (rm m : option string),
    let '(s1, effs) := OTP.handleVerifyOTP resetToken (Rejected rm m) s in
    effs = [Net (VerifyOTP resetToken (OTP.otp s))] /\
    OTP.verificationToken s1 = OTP.verificationToken s /\
    OTP.isSubmitting s1 = false /\
    (forall r, rm = Some r -> r <> "" -> OTP.error s1 = Some r) /\
    ((rm = None \/ rm = Some "") -> OTP.error s1 = Some "OTP verification failed").
Proof.
  intros resetToken s rm m. cbn.
  split; [reflexivity | split; [reflexivity | split; [reflexivity | split]]].
  - intros r -> Hr. cbn. apply String.eqb_neq in Hr. rewrite Hr. reflexivity.
  - intros [-> | ->]; reflexivity.
Qed.

(** Witness: the server rejects with an empty message. *)
Lemma X_verify_failure_stays_witness :
  OTP.error (fst (OTP.handleVerifyOTP (Some "rt") (Rejected (Some "") None)
                    (otp_with "" "" None)))
  = Some "OTP verification failed".
Proof.
  pose proof (X_verify_failure_stays (Some "rt") (otp_with "" "" None)
                (Some "") None) as H.
  destruct (OTP.handleVerifyOTP _ _ _) as [s1 effs].
  destruct H as [_ [_ [_ [_ H]]]].
  apply H. right. reflexivity.
Defined.

(** After a successful reset the reset form stays rendered and enabled
    with the same inputs until the scheduled [onBack] runs: submitting it
    again issues the same [resetPassword] call. *)
Theorem X_reset_success_resubmittable :
  forall (s : OTP.state) (v : option string),
    OTP.newPassword s = OTP.confirmPassword s ->
    truthy (OTP.verificationToken s) = true ->
    let s1 := fst (OTP.handlePasswordReset (Resolved v) s) in
    OTP.phase_of s1 = OTP.AwaitingNewPassword /\
    OTP.isSubmitting s1 = false /\
    snd (OTP.handlePasswordReset_start s1) =
      Some (ResetPassword (OTP.verificationToken s) (OTP.newPassword s)).
Proof.
  intros [o nw cf e m sub tok] v Heq Ht s1. cbn in Heq, Ht. subst cf s1.
  unfold OTP.handlePasswordReset, OTP.handlePasswordReset_start, OTP.phase_of.
  cbn. rewrite String.eqb_refl. cbn. rewrite Ht, String.eqb_refl.
  split; [reflexivity | split; reflexivity].
Qed.

(** Witness: ["Secret1!"] twice with stored token ["rt"]. *)
Lemma X_reset_success_resubmittable_witness :
  OTP.phase_of (fst (OTP.handlePasswordReset (Resolved None)
                       (otp_with "Secret1!" "Secret1!" (Some "rt"))))
  = OTP.AwaitingNewPassword.
Proof.
  apply (X_reset_success_resubmittable
           (otp_with "Secret1!" "Secret1!" (Some "rt")) None);
    reflexivity.
Defined.

End OTPHandlerExtras.

Section FormDataExtras.

Import FormData.

Lemma lookup_set_prop_same (o : obj) (k : string) (v : jsval) :
  lookup (set_prop o k v) k = Some v.
Proof.
  induction o as [| [k' v'] r IH]; cbn; [rewrite String.eqb_refl; reflexivity |].
  destruct (String.eqb k' k) eqn:E; cbn; [rewrite String.eqb_refl; reflexivity |].
  rewrite E. exact IH.
Qed.

Lemma lookup_set_prop_other (o : obj) (k k' : string) (v : jsval) :
  k' <> k -> lookup (set_prop o k v) k' = lookup o k'.
Proof.
  intro Hne. induction o as [| [k0 v0] r IH]; cbn.
  - apply String.eqb_neq in Hne. rewrite String.eqb_sym, Hne. reflexivity.
  - destruct (String.eqb k0 k) eqn:E; cbn.
    + apply String.eqb_eq in E. subst k0.
      apply String.eqb_neq in Hne. rewrite String.eqb_sym, Hne. reflexivity.
    + rewrite IH. reflexivity.
Qed.

Lemma includes_dot_cons (a : ascii) (r : string) :
  includes_dot (String a r) = Ascii.eqb dot a || includes_dot r.
Proof. reflexivity. Qed.

Lemma split_dot_cons (a : ascii) (r : string) :
  split_dot (String a r) =
  if Ascii.eqb a dot then EmptyString :: split_dot r
  else match split_dot r with
       | q :: qs => String a q :: qs
       | [] => [String a EmptyString]
       end.
Proof. reflexivity. Qed.

Lemma split_dot_nodot (c : string) :
  includes_dot c = false -> split_dot c = [c].
Proof.
  induction c as [| a r IH]; [reflexivity |].
  rewrite includes_dot_cons, split_dot_cons.
  intro H. apply orb_false_iff in H as [Ha Hr].
  rewrite Ascii.eqb_sym, Ha, (IH Hr). reflexivity.
Qed.

Lemma split_dot_app (p c : string) :
  includes_dot p = false -> includes_dot c = false ->
  split_dot (p ++ "." ++ c) = [p; c].
Proof.
  intros Hp Hc. induction p as [| a r IH].
  - change (split_dot (String dot c) = [EmptyString; c]).
    rewrite split_dot_cons, Ascii.eqb_refl, (split_dot_nodot c Hc). reflexivity.
  - change (split_dot (String a (r ++ "." ++ c)) = [String a r; c]).
    rewrite includes_dot_cons in Hp. apply orb_false_iff in Hp as [Ha Hr].
    rewrite split_dot_cons, Ascii.eqb_sym, Ha, (IH Hr). reflexivity.
Qed.

Lemma includes_dot_app (p c : string) : includes_dot (p ++ "." ++ c) = true.
Proof.
  induction p as [| a r IH].
  - change (includes_dot (String dot c) = true).
    rewrite includes_dot_cons, Ascii.eqb_refl. reflexivity.
  - change (includes_dot (String a (r ++ "." ++ c)) = true).
    rewrite includes_dot_cons, IH. apply orb_true_r.
Qed.

(** The value [handleInputChange] stores: [checked] for a checkbox, else
    [value]. *)
Definition input_value (t : target) : jsval :=
  if String.eqb (type_ t) "checkbox" then JBool (checked t) else JStr (value t).

(** For an input name without a dot, [handleInputChange] stores the
    input's value ([checked] for a checkbox) under that name and leaves
    every other property of [formData] as it was. *)
Theorem X_input_plain_name :
  forall (t : target) (prev : obj),
    includes_dot (name t) = false ->
    let out := fst (handleInputChange t prev) in
    lookup out (name t) = Some (input_value t) /\
    (forall k, k <> name t -> lookup out k = lookup prev k).
Proof.
  intros t prev Hd out. subst out.
  unfold handleInputChange. rewrite Hd. cbn.
  split; [apply lookup_set_prop_same |].
  intros k Hk. apply lookup_set_prop_other. exact Hk.
Qed.

(** Witness: the bio text area. *)
Lemma X_input_plain_name_witness :
  lookup (fst (handleInputChange (mkTarget "bio" "hello" "textarea" false)
                 (init_formData (Some "ann") (Some "a@b.c") "light"))) "email"
  = Some (JStr "a@b.c").
Proof.
  apply (proj2 (X_input_plain_name (mkTarget "bio" "hello" "textarea" false)
                  (init_formData (Some "ann") (Some "a@b.c") "light") eq_refl)).
  discriminate.
Defined.

(** For an input name [parent.child] (neither part containing a dot),
    [handleInputChange] replaces [formData[parent]] by an object holding
    the input's value under [child] and, if [formData[parent]] was an
    object, its other properties unchanged; if [formData[parent]] was
    missing, the new object has the single property [child].  Every other
    property of [formData] is unchanged. *)
Theorem X_input_nested_name :
  forall (t : target) (prev : obj) (p c : string),
    includes_dot p = false -> includes_dot c = false ->
    name t = p ++ "." ++ c ->
    let out := fst (handleInputChange t prev) in
    (forall k, k <> p -> lookup out k = lookup prev k) /\
    exists kids,
      lookup out p = Some (JObj kids) /\
      lookup kids c = Some (input_value t) /\
      (forall old, lookup prev p = Some (JObj old) ->
         forall k, k <> c -> lookup kids k = lookup old k) /\
      (lookup prev p = None -> kids = [(c, input_value t)]).
Proof.
  intros t prev p c Hp Hc Hn out. subst out.
  unfold handleInputChange. rewrite Hn, includes_dot_app, (split_dot_app p c Hp Hc).
  cbn [fst]. fold (input_value t).
  split.
  - intros k Hk. apply lookup_set_prop_other. exact Hk.
  - eexists. split; [apply lookup_set_prop_same |].
    split; [apply lookup_set_prop_same |]. split.
    + intros old Hold k Hk. rewrite Hold. cbn.
      apply lookup_set_prop_other. exact Hk.
    + intros Hnone. rewrite Hnone. reflexivity.
Qed.

(** Witness: the push-notification checkbox, unchecked, on the initial
    [formData]. *)
Lemma X_input_nested_name_witness :
  lookup (fst (handleInputChange (mkTarget "notifications.push" "on" "checkbox" true)
                 (init_formData None None "light"))) "theme"
  = Some (JStr "light").
Proof.
  apply (proj1 (X_input_nested_name
                  (mkTarget "notifications.push" "on" "checkbox" true)
                  (init_formData None None "light") "notifications" "push"
                  eq_refl eq_refl eq_refl)).
  discriminate.
Defined.

(** Changing the theme select both calls [setTheme] with the chosen value
    and stores it under [formData.theme]; no other input calls
    [setTheme]. *)
Theorem X_theme_select :
  forall (t : target) (prev : obj),
    (name t = "theme" -> type_ t <> "checkbox" ->
     lookup (fst (handleInputChange t prev)) "theme" = Some (JStr (value t)) /\
     snd (handleInputChange t prev) = [SetTheme (value t)]) /\
    (name t <> "theme" -> snd (handleInputChange t prev) = []).
Proof.
  intros [n v ty ch] prev; cbn. split.
  - intros -> Hty. unfold handleInputChange; cbn.
    apply String.eqb_neq in Hty. rewrite Hty.
    split; [apply lookup_set_prop_same | reflexivity].
  - intros Hn. unfold handleInputChange; cbn [name type_ value checked].
    apply String.eqb_neq in Hn. rewrite Hn.
    destruct (includes_dot n); [destruct (split_dot n) as [| ? [|]] |]; reflexivity.
Qed.

(** Witness: choosing ["dark"]. *)
Lemma X_theme_select_witness :
  snd (handleInputChange (mkTarget "theme" "dark" "select-one" false)
         (init_formData None None "light")) = [SetTheme "dark"].
Proof.
  apply (proj1 (X_theme_select (mkTarget "theme" "dark" "select-one" false)
                  (init_formData None None "light"))); [reflexivity | discriminate].
Defined.

End FormDataExtras.

Section SectionExtras.

Import Sections.

Definition section_ids : list string := map id settingSections.

(** Each sidebar entry renders its own section, in order, and any other
    [activeSection] value falls back to the profile section. *)
Theorem X_renderSection_dispatch :
  map (fun e => renderSection (id e)) settingSections =
    [ProfileSection; NotificationsSection; SecuritySection;
     AppearanceSection; EditorSection; GeneralSection] /\
  (forall a, ~ In a section_ids -> renderSection a = ProfileSection).
Proof.
  split; [reflexivity |].
  intros a Hn. unfold renderSection.
  repeat match goal with
  | |- context [String.eqb a ?x] =>
      let E := fresh "E" in
      destruct (String.eqb a x) eqn:E;
      [apply String.eqb_eq in E; subst a; exfalso; apply Hn; cbn; tauto |]
  end.
  reflexivity.
Qed.

(** Witness: the unknown section ["billing"]. *)
Lemma X_renderSection_dispatch_witness :
  renderSection "billing" = ProfileSection.
Proof.
  apply (proj2 X_renderSection_dispatch). cbn.
  intros H. repeat (destruct H as [H | H]; [discriminate H |]). exact H.
Defined.

Lemma after_clicks_in (clicks : list nat) :
  forall a, In a section_ids -> In (fold_left (fun a i => click i a) clicks a) section_ids.
Proof.
  induction clicks as [| i clicks IH]; intros a Ha; cbn; [exact Ha |].
  apply IH. unfold click.
  destruct (nth_error settingSections i) as [e |] eqn:E; [| exact Ha].
  apply in_map, (nth_error_In _ _ E).
Qed.

(** Whatever sidebar items are clicked, [activeSection] is always the id
    of one of them, and exactly one sidebar item is highlighted. *)
Theorem X_sidebar_one_active :
  forall clicks : list nat,
    In (after_clicks clicks) section_ids /\
    count_occ Bool.bool_dec (sidebar_active (after_clicks clicks)) true = 1.
Proof.
  intros clicks.
  assert (H : In (after_clicks clicks) section_ids)
    by (apply after_clicks_in; cbn; tauto).
  split; [exact H |].
  revert H. generalize (after_clicks clicks). intros a H. cbn in H.
  repeat (destruct H as [<- | H]; [reflexivity |]). contradiction.
Qed.

End SectionExtras.
